(** * Bath-O-Meter front end: the capture-and-classify cycle of [App.tsx]

    A shallow embedding of the [App] component's controller,
    [captureAndCheck] (src/src/App.tsx, lines 14-55), together with the
    three pieces of React state it drives.  The asynchronous function is
    written in a small monad that threads the UI state, records every call
    that leaves the component, and propagates JavaScript exceptions, so
    that [try]/[catch]/[finally] and the early [return]s read as they do in
    the source. *)

From Stdlib Require Import String List ZArith Bool Lia DecimalString.
Import ListNotations.
Open Scope string_scope.
Open Scope list_scope.
#[local] Set Warnings "-register-all".

(** ** Values *)

(** What a response body deserialises to.  The type argument of
    [axios.post<HygieneResult>] is erased at run time, so the value that
    reaches [setResult] is an arbitrary JSON value; [JNull] is JavaScript's
    [null]. *)
Inductive JSON : Type :=
| JNull
| JBool (b : bool)
| JNumber (n : Z)
| JString (s : string)
| JArray (items : list JSON)
| JObject (fields : list (string * JSON)).

Fixpoint property (name : string) (fields : list (string * JSON)) : option JSON :=
  match fields with
  | [] => None
  | (k, v) :: rest => if String.eqb k name then Some v else property name rest
  end.

Definition is_string (v : option JSON) : bool :=
  match v with Some (JString _) => true | _ => false end.

Definition is_label (v : option JSON) : bool :=
  match v with
  | Some (JString s) => String.eqb s "fresh_clean" || String.eqb s "needs_bath"
  | _ => false
  end.

(** [interface HygieneResult] (lines 7-12), as a run-time shape. *)
Definition matches_HygieneResult (v : JSON) : bool :=
  match v with
  | JObject fields =>
      is_string (property "status" fields)
      && is_label (property "label" fields)
      && is_string (property "confidence" fields)
      && is_string (property "verdict" fields)
  | _ => false
  end.

(** Thrown values. *)
Inductive JsError : Type :=
| TypeError (message : string)
| AxiosError (message : string) (status : option Z).

(** How a statement, or a promise, comes to an end. *)
Inductive Completion (A : Type) : Type :=
| Normal (a : A)
| Throws (e : JsError).
Arguments Normal {A} a.
Arguments Throws {A} e.

(** ** Browser objects *)

Record Blob := { blob_bytes : list Byte.byte; blob_type : string }.

Record File := { file_bytes : list Byte.byte; file_name : string; file_type : string }.

(** [new File(bits, name, { type })]. *)
Definition new_File (bits : list Blob) (name type : string) : File :=
  {| file_bytes := concat (map blob_bytes bits); file_name := name; file_type := type |}.

Definition FormData := list (string * File).

Definition new_FormData : FormData := [].

(** [formData.append(name, value)]. *)
Definition FormData_append (fd : FormData) (name : string) (value : File) : FormData :=
  fd ++ [(name, value)].

(** One part of a [multipart/form-data] body. *)
Record Part := {
  part_name : string;
  part_filename : string;
  part_content_type : string;
  part_payload : list Byte.byte
}.

(** The parts a [FormData] is serialised to: a [File] entry gives its own
    name and type as the part's filename and content type. *)
Definition multipart (fd : FormData) : list Part :=
  map (fun entry =>
         {| part_name := fst entry;
            part_filename := file_name (snd entry);
            part_content_type := file_type (snd entry);
            part_payload := file_bytes (snd entry) |}) fd.

(** ** React state (lines 19-21) *)

Record UIState := {
  result : JSON;
  loading : bool;
  error : option string
}.

(** [useState(null)], [useState(false)], [useState(null)]. *)
Definition initial_state : UIState :=
  {| result := JNull; loading := false; error := None |}.

(** ** Calls that leave the component *)

Inductive Call : Type :=
| GetScreenshot
| Fetch (input : string)
| ResponseBlob
| AxiosPost (url : string) (body : FormData)
| ConsoleError (label : string) (err : JsError).

(** The calls the function [await]s: it is suspended there, and React
    renders the state of that moment. *)
Definition suspends (c : Call) : bool :=
  match c with
  | Fetch _ | ResponseBlob | AxiosPost _ _ => true
  | GetScreenshot | ConsoleError _ _ => false
  end.

Definition is_post (c : Call) : bool :=
  match c with AxiosPost _ _ => true | _ => false end.

(** A call, with the UI state at the moment it is made. *)
Definition Entry : Type := Call * UIState.

(** ** The monad of the asynchronous function *)

Record Run (A : Type) := mkRun {
  completion : Completion A;
  final : UIState;
  trace : list Entry
}.
Arguments mkRun {A} _ _ _.
Arguments completion {A} _.
Arguments final {A} _.
Arguments trace {A} _.

Definition Async (A : Type) : Type := UIState -> Run A.

Definition ret {A} (a : A) : Async A :=
  fun s => mkRun (Normal a) s [].

Definition throw {A} (e : JsError) : Async A :=
  fun s => mkRun (Throws e) s [].

Definition bind {A B} (m : Async A) (k : A -> Async B) : Async B :=
  fun s =>
    let '(mkRun c s1 tr1) := m s in
    match c with
    | Normal a =>
        let '(mkRun c2 s2 tr2) := k a s1 in
        mkRun c2 s2 (tr1 ++ tr2)
    | Throws e => mkRun (Throws e) s1 tr1
    end.

Declare Scope async_scope.
Delimit Scope async_scope with async.
Notation "x <- m ;; k" := (bind m (fun x => k))
  (at level 61, m at next level, right associativity) : async_scope.
Notation "m ;; k" := (bind m (fun _ => k))
  (at level 61, right associativity) : async_scope.
Open Scope async_scope.

(** [try { body } catch (err) { handler } finally { finalizer }]. *)
Definition try_catch_finally {A} (body : Async A) (handler : JsError -> Async A)
    (finalizer : Async unit) : Async A :=
  fun s =>
    let '(mkRun c1 s1 tr1) := body s in
    let '(mkRun c2 s2 tr2) :=
      match c1 with
      | Normal _ => mkRun c1 s1 []
      | Throws err => handler err s1
      end in
    let '(mkRun c3 s3 tr3) := finalizer s2 in
    mkRun (match c3 with
           | Normal _ => c2
           | Throws e => Throws e
           end)
          s3 (tr1 ++ tr2 ++ tr3).

(** The call [c] is made now. *)
Definition perform (c : Call) : Async unit :=
  fun s => mkRun (Normal tt) s [(c, s)].

(** A promise, or a call, settles with [o]. *)
Definition settle {A} (o : Completion A) : Async A :=
  fun s => mkRun o s [].

(** The three state setters. *)
Definition setResult (v : JSON) : Async unit :=
  fun s => mkRun (Normal tt) {| result := v; loading := loading s; error := error s |} [].

Definition setLoading (b : bool) : Async unit :=
  fun s => mkRun (Normal tt) {| result := result s; loading := b; error := error s |} [].

Definition setError (e : option string) : Async unit :=
  fun s => mkRun (Normal tt) {| result := result s; loading := loading s; error := e |} [].

(** ** The world of one attempt *)

(** The mounted [Webcam]: what [getScreenshot()] returns now. *)
Record Webcam := { screenshot : option string }.

(** A [fetch] response: how [response.blob()] settles. *)
Record Response := { blob_reply : Completion Blob }.

(** What comes back for a POST: nothing, or a status and a body. *)
Inductive HttpReply : Type :=
| NoResponse (message : string)
| HttpResponse (status : Z) (body : JSON).

Record AxiosResponse := { data : JSON; response_status : Z }.

Record World := {
  webcamRef_current : option Webcam;
  fetch_reply : string -> Completion Response;
  http_reply : string -> FormData -> HttpReply
}.

(** JavaScript truthiness of a [string | null]: [null] and the empty
    string are falsy.  Gives the string when it is truthy. *)
Definition truthy (v : option string) : option string :=
  match v with
  | None => None
  | Some s => if String.eqb s "" then None else Some s
  end.

Definition getScreenshot (cam : Webcam) : Async (option string) :=
  perform GetScreenshot ;; ret (screenshot cam).

Definition fetch (w : World) (input : string) : Async Response :=
  perform (Fetch input) ;; settle (fetch_reply w input).

Definition blob (response : Response) : Async Blob :=
  perform ResponseBlob ;; settle (blob_reply response).

(** axios's default [validateStatus]. *)
Definition validateStatus (status : Z) : bool :=
  (200 <=? status)%Z && (status <? 300)%Z.

(** How the promise of [axios.post] settles for a given reply: it rejects
    when no response came back or when the status is outside 2xx. *)
Definition axios_settle (reply : HttpReply) : Completion AxiosResponse :=
  match reply with
  | NoResponse message => Throws (AxiosError message None)
  | HttpResponse status d =>
      if validateStatus status
      then Normal {| data := d; response_status := status |}
      else Throws (AxiosError
                     ("Request failed with status code "
                      ++ NilZero.string_of_int (Z.to_int status))
                     (Some status))
  end.

(** [axios.post(url, body)]. *)
Definition axios_post (w : World) (url : string) (body : FormData) : Async AxiosResponse :=
  perform (AxiosPost url body) ;; settle (axios_settle (http_reply w url body)).

Definition console_error (label : string) (err : JsError) : Async unit :=
  perform (ConsoleError label err).

(** ** The view (lines 57-131)

    The element tree [App] returns, as far as it depends on the state:
    the loading overlay, the button, the error banner and the verdict
    card.  The rest of the tree is constant. *)

(** JavaScript's [ToBoolean] on a JSON value. *)
Definition to_boolean (v : JSON) : bool :=
  match v with
  | JNull => false
  | JBool b => b
  | JNumber n => negb (n =? 0)%Z
  | JString s => negb (String.eqb s "")
  | JArray _ | JObject _ => true
  end.

(** [v.name] on a value that is not [null], for the three names the view
    reads ([label], [verdict], [confidence]), none of which is a built-in
    property of a string, a number, a boolean or an array.  [None] is
    [undefined]. *)
Definition member (v : JSON) (name : string) : option JSON :=
  match v with
  | JObject fields => property name fields
  | _ => None
  end.

(** [v === s] for a string literal [s]. *)
Definition strict_eq_string (v : option JSON) (s : string) : bool :=
  match v with
  | Some (JString t) => String.eqb t s
  | _ => false
  end.

(** What [{v && <element/>}] leaves in the tree: the element when [v] is
    truthy, and otherwise [v] itself. *)
Inductive Slot (E : Type) : Type :=
| Element (e : E)
| Primitive (v : JSON).
Arguments Element {E} e.
Arguments Primitive {E} v.

Definition js_and {E} (v : JSON) (e : E) : Slot E :=
  if to_boolean v then Element e else Primitive v.

Definition json_of_error (e : option string) : JSON :=
  match e with
  | None => JNull
  | Some message => JString message
  end.

Inductive Icon : Type := Droplets | UserX.

(** Lines 101-119. *)
Record VerdictCard := {
  card_className : string;
  card_icon : Icon;
  card_icon_className : string;
  card_heading : option JSON;
  card_confidence : option JSON
}.

(** Lines 84-91. *)
Record Button := {
  button_disabled : bool;
  button_label : string
}.

Record View := {
  overlay : Slot unit;
  button : Button;
  error_banner : Slot (option string);
  verdict_card : Slot VerdictCard
}.

Definition App_view (s : UIState) : View :=
  {| overlay := js_and (JBool (loading s)) tt;
     button :=
       {| button_disabled := loading s;
          button_label := if loading s then "Processing..." else "Judge My Look" |};
     error_banner := js_and (json_of_error (error s)) (error s);
     verdict_card :=
       js_and (result s)
         {| card_className :=
              "mt-10 p-8 rounded-3xl text-center w-full border-b-8 transition-all animate-in fade-in slide-in-from-bottom-4 duration-500 "
              ++ (if strict_eq_string (member (result s) "label") "fresh_clean"
                  then "bg-emerald-950/20 border-emerald-500 text-emerald-100 shadow-xl shadow-emerald-900/10"
                  else "bg-rose-950/20 border-rose-500 text-rose-100 shadow-xl shadow-rose-900/10");
            card_icon :=
              if strict_eq_string (member (result s) "label") "fresh_clean"
              then Droplets else UserX;
            card_icon_className :=
              if strict_eq_string (member (result s) "label") "fresh_clean"
              then "w-16 h-16 text-emerald-400" else "w-16 h-16 text-rose-400";
            card_heading := member (result s) "verdict";
            card_confidence := member (result s) "confidence" |} |}.

(** The [console.error] calls of a trace. *)
Definition logs (tr : list Entry) : list Entry :=
  filter (fun e => match fst e with ConsoleError _ _ => true | _ => false end) tr.

(** ** Worlds of the concrete runs *)

Definition frame : string := "data:image/jpeg;base64,/9j/2Q==".

Definition frame_blob : Blob :=
  {| blob_bytes := [Byte.xff; Byte.xd8; Byte.xff; Byte.xd9]; blob_type := "image/jpeg" |}.

Definition decodes (input : string) : Completion Response :=
  Normal {| blob_reply := Normal frame_blob |}.

Definition squeaky_clean : JSON :=
  JObject [("status", JString "ok"); ("label", JString "fresh_clean");
           ("confidence", JString "97%"); ("verdict", JString "Squeaky Clean")].

Definition needs_a_rinse : JSON :=
  JObject [("status", JString "ok"); ("label", JString "needs_bath");
           ("confidence", JString "61%"); ("verdict", JString "Needs A Rinse")].

Definition not_a_verdict : JSON :=
  JObject [("detail", JString "Not Found")].

Definition mounted : option Webcam := Some {| screenshot := Some frame |}.

(** The backend answers [status] with [body]. *)
Definition world_replying (status : Z) (body : JSON) : World :=
  {| webcamRef_current := mounted;
     fetch_reply := decodes;
     http_reply := fun _ _ => HttpResponse status body |}.

Definition world_offline : World :=
  {| webcamRef_current := mounted;
     fetch_reply := decodes;
     http_reply := fun _ _ => NoResponse "Network Error" |}.

Definition world_unmounted : World :=
  {| webcamRef_current := None;
     fetch_reply := decodes;
     http_reply := fun _ _ => HttpResponse 200 squeaky_clean |}.

Definition world_no_frame : World :=
  {| webcamRef_current := Some {| screenshot := None |};
     fetch_reply := decodes;
     http_reply := fun _ _ => HttpResponse 200 squeaky_clean |}.

Definition world_bad_frame : World :=
  {| webcamRef_current := mounted;
     fetch_reply := fun _ => Throws (TypeError "Failed to fetch");
     http_reply := fun _ _ => HttpResponse 200 squeaky_clean |}.

Definition world_bad_body : World :=
  {| webcamRef_current := mounted;
     fetch_reply := fun _ => Normal {| blob_reply := Throws (TypeError "body stream already read") |};
     http_reply := fun _ _ => HttpResponse 200 squeaky_clean |}.

Record ImportMetaEnv := { VITE_API_URL : string }.

Definition vite_env : ImportMetaEnv :=
  {| VITE_API_URL := "http://localhost:8000/predict" |}.

Definition other_env : ImportMetaEnv :=
  {| VITE_API_URL := "http://elsewhere.example/predict" |}.

(** An attempt's world together with the environment as it is by then;
    the module itself was evaluated before, once. *)
Record Moment := { env_now : ImportMetaEnv; world_now : World }.

(** The blob the frame of an attempt is decoded to (lines 24-40): there is
    none when there is no webcam, no frame, or [fetch] or
    [response.blob()] throws. *)
Definition decoded_frame (w : World) : option Blob :=
  match webcamRef_current w with
  | None => None
  | Some current =>
      match truthy (screenshot current) with
      | None => None
      | Some imageSrc =>
          match fetch_reply w imageSrc with
          | Throws _ => None
          | Normal response =>
              match blob_reply response with
              | Throws _ => None
              | Normal b => Some b
              end
          end
      end
  end.

(** A state with a verdict on screen and an old error under it. *)
Definition stale_state : UIState :=
  {| result := needs_a_rinse; loading := false; error := Some "Old error." |}.

(** ** The component *)

Section App.

(** The environment the module is evaluated in, once, when it is loaded. *)
Variable import_meta_env : ImportMetaEnv.

(** Line 14. *)
Definition API_URL : string := VITE_API_URL import_meta_env.

(** Lines 23-55.  The two early [return]s are the branches that end in
    [ret tt]. *)
Definition captureAndCheck (w : World) : Async unit :=
  match webcamRef_current w with
  | None => ret tt
  | Some current =>
      setLoading true ;;
      setError None ;;
      imageSrc <- getScreenshot current ;;
      match truthy imageSrc with
      | None =>
          setError (Some "Could not capture image from webcam.") ;;
          setLoading false ;;
          ret tt
      | Some imageSrc =>
          try_catch_finally
            (response <- fetch w imageSrc ;;
             blob <- blob response ;;
             let file := new_File [blob] "selfie.jpg" "image/jpeg" in
             let formData := FormData_append new_FormData "file" file in
             apiResponse <- axios_post w API_URL formData ;;
             setResult (data apiResponse))
            (fun err =>
               console_error "API Error:" err ;;
               setError (Some "Failed to connect to the Bath-O-Meter backend."))
            (setLoading false)
      end
  end.

(** Successive clicks: each attempt starts from the state the previous
    one left, and the traces follow one another. *)
Fixpoint attempts (ws : list World) (s : UIState) : Run unit :=
  match ws with
  | [] => mkRun (Normal tt) s []
  | w :: rest =>
      let r := captureAndCheck w s in
      let r' := attempts rest (final r) in
      mkRun (completion r') (final r') (trace r ++ trace r')
  end.

(** ** The states and the paths of an attempt *)

(** The state after lines 26-27. *)
Definition requesting (s : UIState) : UIState :=
  {| result := result s; loading := true; error := None |}.

Definition failed (s : UIState) (message : string) : UIState :=
  {| result := result s; loading := false; error := Some message |}.

Definition succeeded (body : JSON) : UIState :=
  {| result := body; loading := false; error := None |}.

(** Calls made while the UI state is [s]. *)
Definition seen_in (s : UIState) (calls : list Call) : list Entry :=
  map (fun c => (c, s)) calls.

(** The form of lines 41-44, for the blob the frame was decoded to. *)
Definition upload_of (b : Blob) : FormData :=
  FormData_append new_FormData "file" (new_File [b] "selfie.jpg" "image/jpeg").

(** The page through a run of moments.  Line 14 was evaluated when the
    module was loaded, in [import_meta_env]; what the environment is at the
    time of an attempt is not looked at. *)
Definition page (moments : list Moment) : UIState -> Run unit :=
  attempts (map world_now moments).

(** The POST an attempt is to make: one when its frame decodes, of the
    form built from the decoded blob, and none otherwise. *)
Definition post_due (w : World) : list Call :=
  match decoded_frame w with
  | Some b => [AxiosPost API_URL (upload_of b)]
  | None => []
  end.

(** The [try] block throws [err] after making [calls]. *)
Inductive rejects (w : World) (imageSrc : string) : list Call -> JsError -> Prop :=
| rejects_fetch err :
    fetch_reply w imageSrc = Throws err ->
    rejects w imageSrc [Fetch imageSrc] err
| rejects_blob response err :
    fetch_reply w imageSrc = Normal response ->
    blob_reply response = Throws err ->
    rejects w imageSrc [Fetch imageSrc; ResponseBlob] err
| rejects_post response b err :
    fetch_reply w imageSrc = Normal response ->
    blob_reply response = Normal b ->
    axios_settle (http_reply w API_URL (upload_of b)) = Throws err ->
    rejects w imageSrc [Fetch imageSrc; ResponseBlob; AxiosPost API_URL (upload_of b)] err.

(** The [try] block runs to its end: the frame decodes to [b] and the
    POST of [b] resolves with [apiResponse]. *)
Inductive resolves (w : World) (imageSrc : string) : Blob -> AxiosResponse -> Prop :=
| resolves_post response b apiResponse :
    fetch_reply w imageSrc = Normal response ->
    blob_reply response = Normal b ->
    axios_settle (http_reply w API_URL (upload_of b)) = Normal apiResponse ->
    resolves w imageSrc b apiResponse.

(** The four ways through [captureAndCheck]. *)
Inductive attempt (w : World) (s : UIState) : Run unit -> Prop :=
| attempt_unmounted :
    webcamRef_current w = None ->
    attempt w s (mkRun (Normal tt) s [])
| attempt_no_frame current :
    webcamRef_current w = Some current ->
    truthy (screenshot current) = None ->
    attempt w s
      (mkRun (Normal tt) (failed s "Could not capture image from webcam.")
         (seen_in (requesting s) [GetScreenshot]))
| attempt_rejected current imageSrc calls err :
    webcamRef_current w = Some current ->
    truthy (screenshot current) = Some imageSrc ->
    rejects w imageSrc calls err ->
    attempt w s
      (mkRun (Normal tt) (failed s "Failed to connect to the Bath-O-Meter backend.")
         (seen_in (requesting s)
            (GetScreenshot :: calls ++ [ConsoleError "API Error:" err])))
| attempt_resolved current imageSrc b apiResponse :
    webcamRef_current w = Some current ->
    truthy (screenshot current) = Some imageSrc ->
    resolves w imageSrc b apiResponse ->
    attempt w s
      (mkRun (Normal tt) (succeeded (data apiResponse))
         (seen_in (requesting s)
            [GetScreenshot; Fetch imageSrc; ResponseBlob;
             AxiosPost API_URL (upload_of b)])).

(** The attempt of [w] is a successful classification with [body]. *)
Definition classified (w : World) (body : JSON) : Prop :=
  exists current imageSrc b apiResponse,
    webcamRef_current w = Some current /\
    truthy (screenshot current) = Some imageSrc /\
    resolves w imageSrc b apiResponse /\
    data apiResponse = body.

(** The two kinds of failure, and the message each one shows. *)
Inductive Failure : Type := CaptureUnavailable | TransportFailure.

Definition failure_message (k : Failure) : string :=
  match k with
  | CaptureUnavailable => "Could not capture image from webcam."
  | TransportFailure => "Failed to connect to the Bath-O-Meter backend."
  end.

Inductive fails (w : World) : Failure -> Prop :=
| fails_capture current :
    webcamRef_current w = Some current ->
    truthy (screenshot current) = None ->
    fails w CaptureUnavailable
| fails_transport current imageSrc calls err :
    webcamRef_current w = Some current ->
    truthy (screenshot current) = Some imageSrc ->
    rejects w imageSrc calls err ->
    fails w TransportFailure.

(** The POST gets no response, or one whose status is not 2xx. *)
Definition post_fails (reply : HttpReply) : Prop :=
  match reply with
  | NoResponse _ => True
  | HttpResponse status _ => validateStatus status = false
  end.

(** The loading flag as the testable property words it: at a suspension
    point it is set exactly when the POST is the call in flight. *)
Definition loading_only_during_post (tr : list Entry) : Prop :=
  forall c seen, In (c, seen) tr -> suspends c = true -> loading seen = is_post c.

(** The stored result as the data model words it: once set, no attempt
    puts [null] back. *)
Definition never_reset_to_null (w : World) (s : UIState) : Prop :=
  result s <> JNull -> result (final (captureAndCheck w s)) <> JNull.

(** The POSTs of a trace. *)
Definition posts (tr : list Entry) : list Entry :=
  filter (fun e => is_post (fst e)) tr.

(** ** Every run takes one of the four paths *)

Ltac unfold_run :=
  unfold captureAndCheck, getScreenshot, try_catch_finally, fetch, blob,
    axios_post, console_error, bind, perform, settle.

Lemma run_unmounted (w : World) (s : UIState) :
  webcamRef_current w = None ->
  captureAndCheck w s = mkRun (Normal tt) s [].
Proof. intros Hcur. unfold captureAndCheck. now rewrite Hcur. Qed.

Lemma run_no_frame (w : World) (s : UIState) current :
  webcamRef_current w = Some current ->
  truthy (screenshot current) = None ->
  captureAndCheck w s =
    mkRun (Normal tt) (failed s "Could not capture image from webcam.")
      (seen_in (requesting s) [GetScreenshot]).
Proof.
  intros Hcur Hsrc. unfold_run. rewrite Hcur. cbn. now rewrite Hsrc.
Qed.

Lemma run_rejected (w : World) (s : UIState) current imageSrc calls err :
  webcamRef_current w = Some current ->
  truthy (screenshot current) = Some imageSrc ->
  rejects w imageSrc calls err ->
  captureAndCheck w s =
    mkRun (Normal tt) (failed s "Failed to connect to the Bath-O-Meter backend.")
      (seen_in (requesting s) (GetScreenshot :: calls ++ [ConsoleError "API Error:" err])).
Proof.
  intros Hcur Hsrc Hrej. unfold_run. rewrite Hcur. cbn. rewrite Hsrc. cbn.
  destruct Hrej as [err Hf | response err Hf Hb | response b err Hf Hb Hp].
  - now rewrite Hf.
  - rewrite Hf. cbn. now rewrite Hb.
  - rewrite Hf. cbn. rewrite Hb. cbn.
    unfold upload_of in Hp. cbn in Hp. now rewrite Hp.
Qed.

Lemma run_resolved (w : World) (s : UIState) current imageSrc b apiResponse :
  webcamRef_current w = Some current ->
  truthy (screenshot current) = Some imageSrc ->
  resolves w imageSrc b apiResponse ->
  captureAndCheck w s =
    mkRun (Normal tt) (succeeded (data apiResponse))
      (seen_in (requesting s)
         [GetScreenshot; Fetch imageSrc; ResponseBlob; AxiosPost API_URL (upload_of b)]).
Proof.
  intros Hcur Hsrc [response b' apiResponse' Hf Hb Hp].
  unfold_run. rewrite Hcur. cbn. rewrite Hsrc. cbn.
  rewrite Hf. cbn. rewrite Hb. cbn.
  unfold upload_of in Hp. cbn in Hp. now rewrite Hp.
Qed.

(** What the [try] block does is decided by the world. *)
Lemma try_block_cases (w : World) (imageSrc : string) :
  (exists calls err, rejects w imageSrc calls err) \/
  (exists b apiResponse, resolves w imageSrc b apiResponse).
Proof.
  destruct (fetch_reply w imageSrc) as [response|err] eqn:Hf.
  2: { left. exists [Fetch imageSrc], err. now constructor. }
  destruct (blob_reply response) as [b|err] eqn:Hb.
  2: { left. eexists _, err. eapply rejects_blob; eassumption. }
  destruct (axios_settle (http_reply w API_URL (upload_of b))) as [apiResponse|err] eqn:Hp.
  - right. exists b, apiResponse. econstructor; eassumption.
  - left. eexists _, err. eapply rejects_post; eassumption.
Qed.

Lemma captureAndCheck_attempt (w : World) (s : UIState) :
  attempt w s (captureAndCheck w s).
Proof.
  destruct (webcamRef_current w) as [current|] eqn:Hcur.
  2: { rewrite run_unmounted by assumption. now constructor. }
  destruct (truthy (screenshot current)) as [imageSrc|] eqn:Hsrc.
  2: { rewrite (run_no_frame w s current) by assumption.
       now apply (attempt_no_frame w s current). }
  destruct (try_block_cases w imageSrc) as [(calls & err & H) | (b & apiResponse & H)].
  - rewrite (run_rejected w s current imageSrc calls err) by assumption.
    now apply (attempt_rejected w s current imageSrc calls err).
  - rewrite (run_resolved w s current imageSrc b apiResponse) by assumption.
    now apply (attempt_resolved w s current imageSrc b apiResponse).
Qed.

(** ** Auxiliary facts *)

Lemma axios_settle_resolves (reply : HttpReply) status body :
  reply = HttpResponse status body ->
  validateStatus status = true ->
  axios_settle reply = Normal {| data := body; response_status := status |}.
Proof. intros -> Hv. cbn. now rewrite Hv. Qed.

Lemma axios_settle_rejects (reply : HttpReply) :
  post_fails reply -> exists err, axios_settle reply = Throws err.
Proof.
  destruct reply as [message|status body]; cbn; intros H.
  - now eexists.
  - rewrite H. now eexists.
Qed.

Lemma multipart_upload_of (b : Blob) :
  multipart (upload_of b) =
    [{| part_name := "file"; part_filename := "selfie.jpg";
        part_content_type := "image/jpeg"; part_payload := blob_bytes b |}].
Proof. cbn. now rewrite app_nil_r. Qed.

Lemma in_seen_in (c : Call) (seen st : UIState) (calls : list Call) :
  In (c, seen) (seen_in st calls) -> In c calls /\ seen = st.
Proof.
  unfold seen_in. intros Hin. apply in_map_iff in Hin.
  destruct Hin as (c' & Heq & Hin). injection Heq as -> ->. auto.
Qed.

(** Every call of an attempt is made in the state set at entry. *)
Lemma calls_seen_requesting (w : World) (s : UIState) c seen :
  In (c, seen) (trace (captureAndCheck w s)) -> seen = requesting s.
Proof.
  intros Hin.
  destruct (captureAndCheck_attempt w s); cbn [trace] in Hin.
  - contradiction.
  - now apply in_seen_in in Hin.
  - now apply in_seen_in in Hin.
  - now apply in_seen_in in Hin.
Qed.

Lemma run_enters (w : World) (s : UIState) current :
  webcamRef_current w = Some current ->
  hd_error (trace (captureAndCheck w s)) = Some (GetScreenshot, requesting s).
Proof.
  intros Hcur.
  destruct (captureAndCheck_attempt w s); try reflexivity; congruence.
Qed.

Lemma run_fails (w : World) (s : UIState) (k : Failure) :
  fails w k ->
  final (captureAndCheck w s) = failed s (failure_message k).
Proof.
  intros [current Hcur Hsrc | current imageSrc calls err Hcur Hsrc Hrej].
  - now rewrite (run_no_frame w s current).
  - now rewrite (run_rejected w s current imageSrc calls err).
Qed.

Lemma classified_or_not (w : World) :
  (exists body, classified w body) \/ (forall body, ~ classified w body).
Proof.
  destruct (webcamRef_current w) as [current|] eqn:Hcur.
  2: { right. intros body (c & _ & _ & _ & H & _). congruence. }
  destruct (truthy (screenshot current)) as [imageSrc|] eqn:Hsrc.
  2: { right. intros body (c & i & _ & _ & H1 & H2 & _). congruence. }
  destruct (try_block_cases w imageSrc) as [(calls & err & Hrej) | (b & apiResponse & Hres)].
  - right. intros body (c & i & b & a & H1 & H2 & Hres & _).
    assert (c = current) by congruence. subst c.
    assert (i = imageSrc) by congruence. subst i.
    destruct Hres as [response b' a' Hf Hb Hp].
    destruct Hrej as [e Hf' | r e Hf' Hb' | r b0 e Hf' Hb' Hp']; congruence.
  - left. exists (data apiResponse), current, imageSrc, b, apiResponse. auto.
Qed.

Lemma result_overwritten (w : World) (s : UIState) body :
  classified w body -> final (captureAndCheck w s) = succeeded body.
Proof.
  intros (current & imageSrc & b & apiResponse & Hcur & Hsrc & Hres & <-).
  now rewrite (run_resolved w s current imageSrc b apiResponse).
Qed.

Lemma result_untouched (w : World) (s : UIState) :
  (forall body, ~ classified w body) ->
  result (final (captureAndCheck w s)) = result s.
Proof.
  intros Hno.
  destruct (captureAndCheck_attempt w s) as [ | | | current imageSrc b apiResponse Hcur Hsrc Hres];
    try reflexivity.
  exfalso. apply (Hno (data apiResponse)).
  now exists current, imageSrc, b, apiResponse.
Qed.

Lemma attempts_app (ws1 ws2 : list World) (s : UIState) :
  final (attempts (ws1 ++ ws2) s) = final (attempts ws2 (final (attempts ws1 s))) /\
  trace (attempts (ws1 ++ ws2) s) =
    trace (attempts ws1 s) ++ trace (attempts ws2 (final (attempts ws1 s))).
Proof.
  revert s. induction ws1 as [|w ws1 IH]; intros s; cbn.
  - auto.
  - destruct (IH (final (captureAndCheck w s))) as [-> ->].
    now rewrite app_assoc.
Qed.

Lemma result_kept_without_success (ws : list World) (s : UIState) :
  (forall w body, In w ws -> ~ classified w body) ->
  result (final (attempts ws s)) = result s.
Proof.
  revert s. induction ws as [|w ws IH]; intros s Hno; cbn.
  - reflexivity.
  - rewrite IH.
    + apply result_untouched. intros body. apply Hno. now left.
    + intros w' body Hin. apply Hno. now right.
Qed.

Lemma result_set_by_success (ws : list World) (s : UIState) :
  (forall w body, In w ws -> classified w body -> body <> JNull) ->
  result s <> JNull \/ (exists w body, In w ws /\ classified w body) ->
  result (final (attempts ws s)) <> JNull.
Proof.
  revert s. induction ws as [|w ws IH]; intros s Hbody Hsome; cbn.
  - destruct Hsome as [H | (w & _ & [] & _)]. exact H.
  - apply IH.
    + intros w' body Hin. apply Hbody. now right.
    + destruct (classified_or_not w) as [(body & Hc) | Hno].
      * left. rewrite (result_overwritten w s body Hc). cbn.
        apply (Hbody w); [now left | exact Hc].
      * destruct Hsome as [H | (w' & body & [<- | Hin] & Hc)].
        -- left. now rewrite result_untouched.
        -- exfalso. exact (Hno body Hc).
        -- right. now exists w', body.
Qed.

Lemma posts_app (tr1 tr2 : list Entry) :
  posts (tr1 ++ tr2) = posts tr1 ++ posts tr2.
Proof. apply filter_app. Qed.

(** ** The outcomes of one attempt *)

(** C1.  When the webcam gives a frame, the frame decodes, and the POST to
    [API_URL] comes back with a 2xx status, [captureAndCheck] ends with
    [loading = false], [error = null] and [result] the response body as
    it was received. *)
Theorem captureAndCheck_success (w : World) (s : UIState)
    current imageSrc response b status body :
  webcamRef_current w = Some current ->
  truthy (screenshot current) = Some imageSrc ->
  fetch_reply w imageSrc = Normal response ->
  blob_reply response = Normal b ->
  http_reply w API_URL (upload_of b) = HttpResponse status body ->
  validateStatus status = true ->
  let r := captureAndCheck w s in
  loading (final r) = false /\ error (final r) = None /\ result (final r) = body.
Proof.
  intros Hcur Hsrc Hf Hb Hreply Hv r. subst r.
  pose proof (axios_settle_resolves _ status body Hreply Hv) as Hp.
  rewrite (run_resolved w s current imageSrc b _ Hcur Hsrc
             (resolves_post w imageSrc response b _ Hf Hb Hp)).
  cbn. auto.
Qed.

(** C2.  When [getScreenshot()] yields [null], [captureAndCheck] ends in
    the Failed state, with [loading = false] and the capture message as
    [error], the result as it was, and no call made other than
    [getScreenshot] itself: neither the decoding [fetch] nor the POST. *)
Theorem captureAndCheck_no_frame (w : World) (s : UIState) current :
  webcamRef_current w = Some current ->
  screenshot current = None ->
  let r := captureAndCheck w s in
  loading (final r) = false /\
  error (final r) = Some "Could not capture image from webcam." /\
  error (final r) <> None /\
  result (final r) = result s /\
  (forall c seen, In (c, seen) (trace r) -> c = GetScreenshot) /\
  posts (trace r) = [].
Proof.
  intros Hcur Hshot r. subst r.
  rewrite (run_no_frame w s current Hcur) by now rewrite Hshot.
  cbn. repeat split; try easy.
  intros c seen [H | []]. now inversion H.
Qed.

(** C3.  When the POST is made and fails, by no response at all or by a
    status outside 2xx, [captureAndCheck] ends with [loading = false], the
    backend message as [error], which is not the message of any attempt
    that got no frame, and the result as it was before the attempt. *)
Theorem captureAndCheck_transport_failure (w : World) (s : UIState)
    current imageSrc response b :
  webcamRef_current w = Some current ->
  truthy (screenshot current) = Some imageSrc ->
  fetch_reply w imageSrc = Normal response ->
  blob_reply response = Normal b ->
  post_fails (http_reply w API_URL (upload_of b)) ->
  let r := captureAndCheck w s in
  loading (final r) = false /\
  error (final r) = Some "Failed to connect to the Bath-O-Meter backend." /\
  result (final r) = result s /\
  (forall w' s' current',
      webcamRef_current w' = Some current' ->
      screenshot current' = None ->
      error (final r) <> error (final (captureAndCheck w' s'))).
Proof.
  intros Hcur Hsrc Hf Hb Hfail r. subst r.
  destruct (axios_settle_rejects _ Hfail) as [err Hp].
  rewrite (run_rejected w s current imageSrc _ err Hcur Hsrc
             (rejects_post w imageSrc response b err Hf Hb Hp)).
  cbn. repeat split.
  intros w' s' current' Hcur' Hshot'.
  rewrite (run_no_frame w' s' current' Hcur') by now rewrite Hshot'.
  cbn. discriminate.
Qed.

(** C4.  When [webcamRef.current] is [null], [captureAndCheck] returns at
    once: the three pieces of state are what they were and no call is
    made. *)
Theorem captureAndCheck_unmounted (w : World) (s : UIState) :
  webcamRef_current w = None ->
  let r := captureAndCheck w s in
  completion r = Normal tt /\ final r = s /\ trace r = [].
Proof.
  intros Hcur r. subst r. rewrite (run_unmounted w s Hcur). cbn. auto.
Qed.

(** C5, as amended.  [loading] is set at entry, before the frame is
    decoded: at every point where an attempt is suspended, on the decoding
    [fetch], on [response.blob()] and on the POST, the state shown has
    [loading = true].  Every attempt that passes the precondition ends
    with [loading = false], whatever is thrown inside the [try] block, and
    an attempt that does not pass it leaves the state as it was. *)
Theorem loading_from_entry_to_exit (w : World) (s : UIState) :
  let r := captureAndCheck w s in
  (forall c seen, In (c, seen) (trace r) -> suspends c = true -> loading seen = true) /\
  (webcamRef_current w <> None -> completion r = Normal tt /\ loading (final r) = false) /\
  (webcamRef_current w = None -> final r = s).
Proof.
  intros r. subst r. split; [|split].
  - intros c seen Hin _. now rewrite (calls_seen_requesting w s c seen Hin).
  - intros Hmounted.
    destruct (captureAndCheck_attempt w s); cbn; auto; contradiction.
  - intros Hcur. now rewrite run_unmounted.
Qed.

(** C6.  An attempt that passes the precondition starts by putting
    [error] back to [null], with the result as it was: that is the state
    its first call sees.  So when two failing attempts follow each other,
    the error after each one is the single message of its own kind of
    failure, whatever error was shown before, and the result is still the
    one from before the two. *)
Theorem error_replaced_on_each_attempt (w w1 w2 : World) (s : UIState)
    (k1 k2 : Failure) current :
  webcamRef_current w = Some current ->
  fails w1 k1 ->
  fails w2 k2 ->
  let r := captureAndCheck w s in
  let r1 := captureAndCheck w1 s in
  let r2 := captureAndCheck w2 (final r1) in
  (exists seen,
      hd_error (trace r) = Some (GetScreenshot, seen) /\
      error seen = None /\ result seen = result s) /\
  error (final r1) = Some (failure_message k1) /\
  error (final r2) = Some (failure_message k2) /\
  result (final r2) = result s.
Proof.
  intros Hcur H1 H2 r r1 r2. subst r r1 r2.
  split.
  - exists (requesting s). rewrite (run_enters w s current Hcur). auto.
  - rewrite (run_fails w2 _ k2 H2), (run_fails w1 s k1 H1). cbn. auto.
Qed.

(** C9.  The body of a response that came back with a 2xx status is not
    checked against [HygieneResult]: a body of another shape is stored as
    the result all the same, [error] stays [null], and nothing is caught
    or logged. *)
Theorem captureAndCheck_stores_any_body (w : World) (s : UIState)
    current imageSrc response b status body :
  webcamRef_current w = Some current ->
  truthy (screenshot current) = Some imageSrc ->
  fetch_reply w imageSrc = Normal response ->
  blob_reply response = Normal b ->
  http_reply w API_URL (upload_of b) = HttpResponse status body ->
  validateStatus status = true ->
  matches_HygieneResult body = false ->
  let r := captureAndCheck w s in
  result (final r) = body /\
  matches_HygieneResult (result (final r)) = false /\
  error (final r) = None /\
  (forall label err seen, ~ In (ConsoleError label err, seen) (trace r)).
Proof.
  intros Hcur Hsrc Hf Hb Hreply Hv Hshape r. subst r.
  pose proof (axios_settle_resolves _ status body Hreply Hv) as Hp.
  rewrite (run_resolved w s current imageSrc b _ Hcur Hsrc
             (resolves_post w imageSrc response b _ Hf Hb Hp)).
  cbn. repeat split; auto.
  intros label err seen Hin.
  repeat (destruct Hin as [Heq | Hin]; [discriminate Heq|]). contradiction.
Qed.

(** C10.  When a frame is obtained and decoding it throws, in [fetch] or
    in [response.blob()], the handler of the [try] block catches it: the
    error is logged, the attempt ends with [loading = false], the result
    as it was and the backend message as [error], not the capture
    message; the POST is never made. *)
Theorem captureAndCheck_decode_failure (w : World) (s : UIState)
    current imageSrc err :
  webcamRef_current w = Some current ->
  truthy (screenshot current) = Some imageSrc ->
  fetch_reply w imageSrc = Throws err \/
  (exists response,
      fetch_reply w imageSrc = Normal response /\ blob_reply response = Throws err) ->
  let r := captureAndCheck w s in
  loading (final r) = false /\
  result (final r) = result s /\
  error (final r) = Some "Failed to connect to the Bath-O-Meter backend." /\
  error (final r) <> Some "Could not capture image from webcam." /\
  In (ConsoleError "API Error:" err, requesting s) (trace r) /\
  posts (trace r) = [].
Proof.
  intros Hcur Hsrc Hdecode r. subst r.
  destruct Hdecode as [Hf | (response & Hf & Hb)].
  - rewrite (run_rejected w s current imageSrc _ err Hcur Hsrc
               (rejects_fetch w imageSrc err Hf)).
    cbn. repeat split; auto. discriminate.
  - rewrite (run_rejected w s current imageSrc _ err Hcur Hsrc
               (rejects_blob w imageSrc response err Hf Hb)).
    cbn. repeat split; auto. discriminate.
Qed.

(** ** Sessions *)

Lemma decoded_frame_some (w : World) (b : Blob) :
  decoded_frame w = Some b <->
  exists current imageSrc response,
    webcamRef_current w = Some current /\
    truthy (screenshot current) = Some imageSrc /\
    fetch_reply w imageSrc = Normal response /\
    blob_reply response = Normal b.
Proof.
  unfold decoded_frame. split.
  - destruct (webcamRef_current w) as [current|]; [|discriminate].
    destruct (truthy (screenshot current)) as [imageSrc|] eqn:Hsrc; [|discriminate].
    destruct (fetch_reply w imageSrc) as [response|] eqn:Hf; [|discriminate].
    destruct (blob_reply response) as [b'|] eqn:Hb; [|discriminate].
    intros Heq. injection Heq as ->. now exists current, imageSrc, response.
  - intros (current & imageSrc & response & -> & -> & -> & ->). reflexivity.
Qed.

(** The POSTs of one attempt are the one that is due, and no other. *)
Lemma posts_of_attempt_due (w : World) (s : UIState) :
  map fst (posts (trace (captureAndCheck w s))) = post_due w.
Proof.
  unfold post_due, decoded_frame.
  destruct (captureAndCheck_attempt w s)
    as [ Hcur | current Hcur Hsrc | current imageSrc calls err Hcur Hsrc Hrej
         | current imageSrc b apiResponse Hcur Hsrc Hres ]; cbn [trace].
  - now rewrite Hcur.
  - now rewrite Hcur, Hsrc.
  - rewrite Hcur, Hsrc.
    destruct Hrej as [e Hf | r e Hf Hb | r b e Hf Hb Hp]; rewrite Hf; try rewrite Hb;
      reflexivity.
  - rewrite Hcur, Hsrc. destruct Hres as [r b' a' Hf Hb Hp]. now rewrite Hf, Hb.
Qed.

Lemma conforming_not_null (body : JSON) :
  matches_HygieneResult body = true -> body <> JNull.
Proof. intros H ->. discriminate H. Qed.

Lemma result_conforms (ws : list World) (s : UIState) :
  (forall w body, In w ws -> classified w body -> matches_HygieneResult body = true) ->
  result s = JNull \/ matches_HygieneResult (result s) = true ->
  result (final (attempts ws s)) = JNull \/
  matches_HygieneResult (result (final (attempts ws s))) = true.
Proof.
  revert s. induction ws as [|w ws IH]; intros s Hbody Hs; cbn.
  - exact Hs.
  - apply IH.
    + intros w' body Hin. apply Hbody. now right.
    + destruct (classified_or_not w) as [(body & Hc) | Hno].
      * right. rewrite (result_overwritten w s body Hc). cbn.
        apply (Hbody w); [now left | exact Hc].
      * now rewrite result_untouched.
Qed.

(** C7.  Over any run of attempts the POSTs are, in order, exactly one for
    each attempt whose frame decodes and none for the others.  Each one
    goes to [API_URL], the value of the environment the module was loaded
    in, whatever the environment is by the time of the attempt, and its
    body is multipart form data of exactly one part: field [file],
    filename [selfie.jpg], content type [image/jpeg], and as payload the
    bytes the frame of that attempt was decoded to. *)
Theorem classification_requests (moments : list Moment) (s : UIState) :
  let r := page moments s in
  map fst (posts (trace r)) = flat_map (fun m => post_due (world_now m)) moments /\
  (forall url body seen,
      In (AxiosPost url body, seen) (trace r) ->
      url = VITE_API_URL import_meta_env /\
      exists m b,
        In m moments /\
        decoded_frame (world_now m) = Some b /\
        multipart body =
          [{| part_name := "file"; part_filename := "selfie.jpg";
              part_content_type := "image/jpeg"; part_payload := blob_bytes b |}]) /\
  (forall m b,
      In m moments ->
      decoded_frame (world_now m) = Some b ->
      exists body seen,
        In (AxiosPost (VITE_API_URL import_meta_env) body, seen) (trace r) /\
        multipart body =
          [{| part_name := "file"; part_filename := "selfie.jpg";
              part_content_type := "image/jpeg"; part_payload := blob_bytes b |}]).
Proof.
  intros r. subst r.
  assert (Hposts : map fst (posts (trace (page moments s)))
                   = flat_map (fun m => post_due (world_now m)) moments).
  { unfold page. revert s. induction moments as [|m moments IH]; intros s; cbn.
    - reflexivity.
    - rewrite posts_app, map_app, posts_of_attempt_due. f_equal. apply IH. }
  split; [exact Hposts|]. split.
  - intros url body seen Hin.
    assert (Hdue : In (AxiosPost url body)
                      (flat_map (fun m => post_due (world_now m)) moments)).
    { rewrite <- Hposts.
      apply (in_map fst _ (AxiosPost url body, seen)).
      apply filter_In. split; [exact Hin | reflexivity]. }
    apply in_flat_map in Hdue. destruct Hdue as (m & Hm & Hdue).
    unfold post_due in Hdue.
    destruct (decoded_frame (world_now m)) as [b|] eqn:Hb; [|contradiction].
    destruct Hdue as [Heq | []]. injection Heq as <- <-.
    split; [reflexivity|]. exists m, b. auto using multipart_upload_of.
  - intros m b Hm Hb.
    assert (Hdue : In (AxiosPost API_URL (upload_of b))
                      (flat_map (fun m => post_due (world_now m)) moments)).
    { apply in_flat_map. exists m. split; [exact Hm|].
      unfold post_due. rewrite Hb. now left. }
    rewrite <- Hposts in Hdue. apply in_map_iff in Hdue.
    destruct Hdue as ([c seen] & Hc & Hin). cbn in Hc. subst c.
    apply filter_In in Hin. destruct Hin as [Hin _].
    exists (upload_of b), seen. split; [exact Hin | apply multipart_upload_of].
Qed.

(** C8.  The stored result through a session that starts in the initial
    state.  It is [null] as long as no attempt has been a successful
    classification; a successful attempt puts its response body in place
    of the old result; an attempt that is not one (no webcam, no frame, or
    a failure inside the [try] block) leaves the result as it was.  When
    the endpoint keeps its contract, every successful response body having
    the [HygieneResult] shape, the result is at all times [null] or one
    such value, it is not [null] once an attempt has succeeded, and no
    attempt puts [null] back. *)
Theorem stored_result (ws : list World) (w : World) :
  let before := final (attempts ws initial_state) in
  let after := final (attempts (ws ++ [w]) initial_state) in
  ((forall w' body, In w' ws -> ~ classified w' body) -> result before = JNull) /\
  (forall body, classified w body -> result after = body) /\
  ((forall body, ~ classified w body) -> result after = result before) /\
  ((forall w' body,
       In w' (ws ++ [w]) -> classified w' body -> matches_HygieneResult body = true) ->
   (result after = JNull \/ matches_HygieneResult (result after) = true) /\
   ((exists w' body, In w' (ws ++ [w]) /\ classified w' body) -> result after <> JNull) /\
   never_reset_to_null w before).
Proof.
  intros before after. subst before after.
  split; [|split; [|split]].
  - intros Hno. now rewrite result_kept_without_success.
  - intros body Hc. destruct (attempts_app ws [w] initial_state) as [-> _]. cbn.
    now rewrite (result_overwritten w _ body Hc).
  - intros Hno. destruct (attempts_app ws [w] initial_state) as [-> _]. cbn.
    now apply result_untouched.
  - intros Hbody. split; [|split].
    + apply result_conforms; [exact Hbody | now left].
    + intros Hsome. apply result_set_by_success; [|now right].
      intros w' body Hin Hc. apply conforming_not_null. now apply (Hbody w').
    + unfold never_reset_to_null. intros Hset.
      destruct (classified_or_not w) as [(body & Hc) | Hno].
      * rewrite (result_overwritten w _ body Hc). cbn.
        apply conforming_not_null. apply (Hbody w); [|exact Hc].
        apply in_or_app. right. now left.
      * now rewrite result_untouched.
Qed.

End App.

(** ** Concrete runs *)

Lemma captureAndCheck_success_witness :
  let r := captureAndCheck vite_env (world_replying 200 squeaky_clean) stale_state in
  loading (final r) = false /\ error (final r) = None /\ result (final r) = squeaky_clean.
Proof.
  apply (captureAndCheck_success vite_env (world_replying 200 squeaky_clean) stale_state
           {| screenshot := Some frame |} frame {| blob_reply := Normal frame_blob |}
           frame_blob 200 squeaky_clean); reflexivity.
Defined.

Lemma captureAndCheck_no_frame_witness :
  let r := captureAndCheck vite_env world_no_frame stale_state in
  loading (final r) = false /\
  error (final r) = Some "Could not capture image from webcam." /\
  error (final r) <> None /\
  result (final r) = needs_a_rinse /\
  (forall c seen, In (c, seen) (trace r) -> c = GetScreenshot) /\
  posts (trace r) = [].
Proof.
  apply (captureAndCheck_no_frame vite_env world_no_frame stale_state
           {| screenshot := None |}); reflexivity.
Defined.

Lemma captureAndCheck_transport_failure_witness :
  let r := captureAndCheck vite_env (world_replying 500 not_a_verdict) stale_state in
  loading (final r) = false /\
  error (final r) = Some "Failed to connect to the Bath-O-Meter backend." /\
  result (final r) = needs_a_rinse /\
  (forall w' s' current',
      webcamRef_current w' = Some current' ->
      screenshot current' = None ->
      error (final r) <> error (final (captureAndCheck vite_env w' s'))).
Proof.
  apply (captureAndCheck_transport_failure vite_env (world_replying 500 not_a_verdict)
           stale_state {| screenshot := Some frame |} frame
           {| blob_reply := Normal frame_blob |} frame_blob); reflexivity.
Defined.

Lemma captureAndCheck_unmounted_witness :
  let r := captureAndCheck vite_env world_unmounted stale_state in
  completion r = Normal tt /\ final r = stale_state /\ trace r = [].
Proof.
  apply (captureAndCheck_unmounted vite_env world_unmounted stale_state); reflexivity.
Defined.

(** C5, as worded, fails on a run in which everything succeeds: at the
    first suspension point, on the decoding [fetch], [loading] is already
    [true] and no POST has been made. *)
Lemma loading_set_before_post :
  ~ loading_only_during_post
      (trace (captureAndCheck vite_env (world_replying 200 squeaky_clean) initial_state)).
Proof.
  intros H.
  specialize (H (Fetch frame) (requesting initial_state)).
  cbn in H. discriminate H; auto.
Qed.

Lemma loading_from_entry_to_exit_witness :
  let r := captureAndCheck vite_env world_bad_body initial_state in
  loading (requesting initial_state) = true /\
  completion r = Normal tt /\ loading (final r) = false.
Proof.
  destruct (loading_from_entry_to_exit vite_env world_bad_body initial_state)
    as (Hseen & Hexit & _).
  split.
  - apply (Hseen ResponseBlob (requesting initial_state)); [cbn; auto | reflexivity].
  - apply Hexit. discriminate.
Defined.

Lemma error_replaced_on_each_attempt_witness :
  let r := captureAndCheck vite_env (world_replying 200 squeaky_clean) stale_state in
  let r1 := captureAndCheck vite_env world_no_frame stale_state in
  let r2 := captureAndCheck vite_env world_offline (final r1) in
  (exists seen,
      hd_error (trace r) = Some (GetScreenshot, seen) /\
      error seen = None /\ result seen = needs_a_rinse) /\
  error (final r1) = Some "Could not capture image from webcam." /\
  error (final r2) = Some "Failed to connect to the Bath-O-Meter backend." /\
  result (final r2) = needs_a_rinse.
Proof.
  apply (error_replaced_on_each_attempt vite_env
           (world_replying 200 squeaky_clean) world_no_frame world_offline stale_state
           CaptureUnavailable TransportFailure {| screenshot := Some frame |}).
  - reflexivity.
  - apply (fails_capture vite_env world_no_frame {| screenshot := None |}); reflexivity.
  - apply (fails_transport vite_env world_offline {| screenshot := Some frame |} frame
             [Fetch frame; ResponseBlob; AxiosPost (API_URL vite_env) (upload_of frame_blob)]
             (AxiosError "Network Error" None)); try reflexivity.
    apply (rejects_post vite_env world_offline frame
             {| blob_reply := Normal frame_blob |}); reflexivity.
Defined.

Lemma captureAndCheck_stores_any_body_witness :
  let r := captureAndCheck vite_env (world_replying 200 not_a_verdict) initial_state in
  result (final r) = not_a_verdict /\
  matches_HygieneResult (result (final r)) = false /\
  error (final r) = None /\
  (forall label err seen, ~ In (ConsoleError label err, seen) (trace r)).
Proof.
  apply (captureAndCheck_stores_any_body vite_env (world_replying 200 not_a_verdict)
           initial_state {| screenshot := Some frame |} frame
           {| blob_reply := Normal frame_blob |} frame_blob 200 not_a_verdict);
    reflexivity.
Defined.

Lemma captureAndCheck_decode_failure_witness :
  let r := captureAndCheck vite_env world_bad_frame stale_state in
  loading (final r) = false /\
  result (final r) = needs_a_rinse /\
  error (final r) = Some "Failed to connect to the Bath-O-Meter backend." /\
  error (final r) <> Some "Could not capture image from webcam." /\
  In (ConsoleError "API Error:" (TypeError "Failed to fetch"), requesting stale_state)
     (trace r) /\
  posts (trace r) = [].
Proof.
  apply (captureAndCheck_decode_failure vite_env world_bad_frame stale_state
           {| screenshot := Some frame |} frame (TypeError "Failed to fetch"));
    [reflexivity | reflexivity | left; reflexivity].
Defined.

Lemma classification_requests_witness :
  let moments :=
    [ {| env_now := other_env; world_now := world_no_frame |};
      {| env_now := other_env; world_now := world_replying 200 squeaky_clean |};
      {| env_now := vite_env; world_now := world_bad_frame |};
      {| env_now := other_env; world_now := world_offline |} ] in
  let r := page vite_env moments initial_state in
  map fst (posts (trace r))
  = [ AxiosPost "http://localhost:8000/predict" (upload_of frame_blob);
      AxiosPost "http://localhost:8000/predict" (upload_of frame_blob) ] /\
  (exists body seen,
      In (AxiosPost "http://localhost:8000/predict" body, seen) (trace r) /\
      multipart body =
        [{| part_name := "file"; part_filename := "selfie.jpg";
            part_content_type := "image/jpeg";
            part_payload := [Byte.xff; Byte.xd8; Byte.xff; Byte.xd9] |}]) /\
  (exists m b,
      In m moments /\
      decoded_frame (world_now m) = Some b /\
      multipart (upload_of frame_blob) =
        [{| part_name := "file"; part_filename := "selfie.jpg";
            part_content_type := "image/jpeg"; part_payload := blob_bytes b |}]).
Proof.
  intros moments r.
  destruct (classification_requests vite_env moments initial_state)
    as (Hposts & Hevery & Hdue).
  split; [exact Hposts|]. split.
  - apply (Hdue {| env_now := other_env; world_now := world_offline |} frame_blob).
    + cbn. do 3 right. left. reflexivity.
    + reflexivity.
  - destruct (Hevery "http://localhost:8000/predict" (upload_of frame_blob)
                (requesting initial_state)) as (_ & m & b & H).
    + cbn. do 4 right. left. reflexivity.
    + now exists m, b.
Defined.

(** Outside the endpoint's contract [never_reset_to_null] does not hold:
    a 2xx response whose body is [null] puts [null] back in place of the
    verdict stored before. *)
Lemma result_reset_by_null_body :
  ~ never_reset_to_null vite_env (world_replying 200 JNull)
      (final (attempts vite_env [world_replying 200 squeaky_clean] initial_state)).
Proof.
  intros H. apply H; [discriminate | reflexivity].
Qed.

Lemma stored_result_witness :
  let ws := [world_no_frame; world_replying 200 squeaky_clean] in
  result (final (attempts vite_env [world_no_frame] initial_state)) = JNull /\
  result (final (attempts vite_env ws initial_state)) = squeaky_clean /\
  result (final (attempts vite_env (ws ++ [world_offline]) initial_state)) = squeaky_clean /\
  result (final (attempts vite_env (ws ++ [world_offline]) initial_state)) <> JNull /\
  never_reset_to_null vite_env world_offline (final (attempts vite_env ws initial_state)).
Proof.
  intros ws.
  assert (Hok : classified vite_env (world_replying 200 squeaky_clean) squeaky_clean).
  { exists {| screenshot := Some frame |}, frame, frame_blob,
      {| data := squeaky_clean; response_status := 200 |}.
    repeat split.
    apply (resolves_post vite_env _ frame {| blob_reply := Normal frame_blob |});
      reflexivity. }
  assert (Hnf : forall body, ~ classified vite_env world_no_frame body).
  { intros body (c & i & _ & _ & Hcur & Hsrc & _).
    injection Hcur as <-. discriminate Hsrc. }
  assert (Hoff : forall body, ~ classified vite_env world_offline body).
  { intros body (c & i & b & a & Hcur & Hsrc & Hres & _).
    destruct Hres as [response b a Hf Hb Hp].
    injection Hcur as <-. injection Hsrc as <-.
    injection Hf as <-. injection Hb as <-. discriminate Hp. }
  assert (Hbody : forall w' body,
             In w' (ws ++ [world_offline]) -> classified vite_env w' body ->
             matches_HygieneResult body = true).
  { intros w' body [<- | [<- | [<- | []]]] Hc.
    - now destruct (Hnf body).
    - destruct Hc as (c & i & b & a & Hcur & Hsrc & Hres & <-).
      destruct Hres as [response b a Hf Hb Hp].
      injection Hp as <-. reflexivity.
    - now destruct (Hoff body). }
  destruct (stored_result vite_env [world_no_frame] (world_replying 200 squeaky_clean))
    as (Hnull & Hset & _ & _).
  destruct (stored_result vite_env ws world_offline) as (_ & _ & Hkeep & Hcontract).
  destruct (Hcontract Hbody) as (_ & Hnonnull & Hnever).
  split; [|split; [|split; [|split]]].
  - apply Hnull. intros w' body [<- | []]. apply Hnf.
  - exact (Hset squeaky_clean Hok).
  - rewrite (Hkeep Hoff). exact (Hset squeaky_clean Hok).
  - apply Hnonnull. exists (world_replying 200 squeaky_clean), squeaky_clean.
    split; [cbn; auto | exact Hok].
  - exact Hnever.
Defined.

(** ** The end-to-end scenarios *)

Example scenario_A :
  final (captureAndCheck vite_env (world_replying 200 squeaky_clean) initial_state)
  = {| result := squeaky_clean; loading := false; error := None |}.
Proof. reflexivity. Qed.

Example scenario_B :
  final (captureAndCheck vite_env (world_replying 200 needs_a_rinse) initial_state)
  = {| result := needs_a_rinse; loading := false; error := None |}.
Proof. reflexivity. Qed.

Example scenario_C :
  final (captureAndCheck vite_env world_no_frame initial_state)
  = {| result := JNull; loading := false;
       error := Some "Could not capture image from webcam." |}.
Proof. reflexivity. Qed.

Example scenario_D :
  final (captureAndCheck vite_env world_offline initial_state)
  = {| result := JNull; loading := false;
       error := Some "Failed to connect to the Bath-O-Meter backend." |}.
Proof. reflexivity. Qed.

Example scenario_D_trace :
  map fst (trace (captureAndCheck vite_env world_offline initial_state))
  = [GetScreenshot; Fetch frame; ResponseBlob;
     AxiosPost "http://localhost:8000/predict" (upload_of frame_blob);
     ConsoleError "API Error:" (AxiosError "Network Error" None)].
Proof. reflexivity. Qed.

(** ** Further properties of the controller and of the view *)

Section AppProperties.

Variable env : ImportMetaEnv.

Lemma truthy_some (v : option string) (imageSrc : string) :
  truthy v = Some imageSrc -> v = Some imageSrc /\ imageSrc <> "".
Proof.
  destruct v as [t|]; cbn; [|discriminate].
  destruct (String.eqb_spec t "") as [->|Hne]; [discriminate|].
  intros H. injection H as <-. auto.
Qed.

Lemma logs_app (tr1 tr2 : list Entry) : logs (tr1 ++ tr2) = logs tr1 ++ logs tr2.
Proof. apply filter_app. Qed.

(** The state a session can be in between two attempts. *)
Lemma idle_after_attempt (w : World) (s : UIState) :
  loading s = false ->
  (error s = None \/ exists k, error s = Some (failure_message k)) ->
  let s' := final (captureAndCheck env w s) in
  loading s' = false /\
  (error s' = None \/ exists k, error s' = Some (failure_message k)).
Proof.
  intros Hl He s'. subst s'.
  destruct (captureAndCheck_attempt env w s); cbn; split; auto.
  - right. now exists CaptureUnavailable.
  - right. now exists TransportFailure.
Qed.

(** X1.  [captureAndCheck] never rejects: whatever the webcam, the
    decoding and the backend do, the promise it returns is fulfilled;
    every error thrown inside the [try] block is caught there. *)
Theorem captureAndCheck_never_rejects (w : World) (s : UIState) :
  completion (captureAndCheck env w s) = Normal tt.
Proof.
  now destruct (captureAndCheck_attempt env w s).
Qed.

(** X2.  [console.error] is called at most once per attempt, always with
    the label ["API Error:"] and the very error the [try] block threw,
    while [loading] is still set; the attempt then ends with the backend
    message.  Conversely a mounted attempt that ends with the backend
    message has logged an error. *)
Theorem errors_are_logged (w : World) (s : UIState) :
  let r := captureAndCheck env w s in
  length (logs (trace r)) <= 1 /\
  (forall label err seen,
      In (ConsoleError label err, seen) (trace r) ->
      label = "API Error:" /\
      loading seen = true /\
      error (final r) = Some "Failed to connect to the Bath-O-Meter backend." /\
      exists current imageSrc calls,
        webcamRef_current w = Some current /\
        truthy (screenshot current) = Some imageSrc /\
        rejects env w imageSrc calls err) /\
  (webcamRef_current w <> None ->
   error (final r) = Some "Failed to connect to the Bath-O-Meter backend." ->
   exists err, In (ConsoleError "API Error:" err, requesting s) (trace r)).
Proof.
  intros r. subst r.
  destruct (captureAndCheck_attempt env w s)
    as [ Hcur | current Hcur Hsrc | current imageSrc calls err Hcur Hsrc Hrej
         | current imageSrc b apiResponse Hcur Hsrc Hres ]; cbn [trace final].
  - split; [cbn; lia|]. split; [intros ? ? ? []|]. intros Hm; contradiction.
  - split; [cbn; lia|]. split.
    + intros label e seen [Heq | []]. discriminate Heq.
    + intros _ Hmsg. discriminate Hmsg.
  - split; [|split].
    + destruct Hrej; cbn; lia.
    + intros label e seen Hin.
      apply in_seen_in in Hin. destruct Hin as [Hin ->].
      destruct Hin as [Heq | Hin]; [discriminate Heq|].
      apply in_app_or in Hin. destruct Hin as [Hin | [Heq | []]].
      * exfalso. destruct Hrej; cbn in Hin;
          repeat (destruct Hin as [Heq | Hin]; [discriminate Heq|]); contradiction.
      * injection Heq as <- <-. repeat split.
        now exists current, imageSrc, calls.
    + intros _ _. exists err. unfold seen_in.
      apply (in_map (fun c => (c, requesting s))).
      right. apply in_or_app. right. now left.
  - split; [cbn; lia|]. split.
    + intros label e seen Hin. cbn in Hin.
      repeat (destruct Hin as [Heq | Hin]; [discriminate Heq|]). contradiction.
    + intros _ Hmsg. discriminate Hmsg.
Qed.

(** X3.  The frame that is decoded is the one the webcam gave: [fetch] is
    only ever called on the string [getScreenshot()] returned, never on
    the empty string, and [response.blob()] is only reached in an attempt
    in which [fetch] has resolved for that string. *)
Theorem decoding_reads_the_screenshot (w : World) (s : UIState) (c : Call) (seen : UIState) :
  In (c, seen) (trace (captureAndCheck env w s)) ->
  suspends c = true ->
  exists current imageSrc,
    webcamRef_current w = Some current /\
    screenshot current = Some imageSrc /\
    imageSrc <> "" /\
    match c with
    | Fetch input => input = imageSrc
    | ResponseBlob => exists response, fetch_reply w imageSrc = Normal response
    | _ => True
    end.
Proof.
  intros Hin Hsusp.
  destruct (captureAndCheck_attempt env w s)
    as [ Hcur | current Hcur Hsrc | current imageSrc calls err Hcur Hsrc Hrej
         | current imageSrc b apiResponse Hcur Hsrc Hres ]; cbn [trace] in Hin.
  - contradiction.
  - destruct Hin as [Heq | []]. injection Heq as <- _. discriminate Hsusp.
  - destruct (truthy_some _ _ Hsrc) as [Hshot Hne].
    exists current, imageSrc. repeat split; auto.
    apply in_seen_in in Hin. destruct Hin as [Hin _].
    destruct Hin as [<- | Hin]; [discriminate Hsusp|].
    apply in_app_or in Hin. destruct Hin as [Hin | [<- | []]]; [|discriminate Hsusp].
    destruct Hrej as [e Hf | response e Hf Hb | response b e Hf Hb Hp]; cbn in Hin;
      repeat (destruct Hin as [<- | Hin]; [try reflexivity; try exact I; eauto|]);
      contradiction.
  - destruct (truthy_some _ _ Hsrc) as [Hshot Hne].
    exists current, imageSrc. repeat split; auto.
    destruct Hres as [response b' a' Hf Hb Hp]. cbn in Hin.
    repeat (destruct Hin as [Heq | Hin];
            [injection Heq as <- _; try discriminate Hsusp; try reflexivity; try exact I; eauto|]).
    contradiction.
Qed.

(** X4.  In the state reached after any sequence of attempts from the
    initial state, [loading] is [false] and [error] is [null] or one of the
    two fixed messages.  So the element tree [App] returns for that state
    has no overlay element, has the button with [disabled] false and the
    label ["Judge My Look"], and has the banner element exactly when
    [error] is a message, carrying that message.  The statement is about
    the tree [App] returns; the children of the verdict card are not
    constrained by it. *)
Theorem idle_between_attempts (ws : list World) :
  let s := final (attempts env ws initial_state) in
  loading s = false /\
  overlay (App_view s) = Primitive (JBool false) /\
  button (App_view s) = {| button_disabled := false; button_label := "Judge My Look" |} /\
  ((error s = None /\ error_banner (App_view s) = Primitive JNull) \/
   (exists k, error s = Some (failure_message k) /\
              error_banner (App_view s) = Element (Some (failure_message k)))).
Proof.
  intros s.
  assert (Hinv : loading s = false /\
                 (error s = None \/ exists k, error s = Some (failure_message k))).
  { subst s. generalize initial_state
      (conj (eq_refl : loading initial_state = false)
            (or_introl eq_refl
               : error initial_state = None \/
                 exists k, error initial_state = Some (failure_message k))).
    induction ws as [|w ws IH]; intros s0 Hs0; cbn.
    - exact Hs0.
    - apply IH. destruct Hs0 as [Hl He]. now apply idle_after_attempt. }
  destruct Hinv as [Hl He]. unfold App_view. cbn. rewrite Hl.
  repeat split.
  destruct He as [-> | [k ->]].
  - now left.
  - right. exists k. now destruct k.
Qed.

(** X5.  An attempt is idempotent on the state: made again in the same
    world, it ends in the state the first one ended in. *)
Theorem captureAndCheck_idempotent (w : World) (s : UIState) :
  final (captureAndCheck env w (final (captureAndCheck env w s)))
  = final (captureAndCheck env w s).
Proof.
  destruct (captureAndCheck_attempt env w s)
    as [ Hcur | current Hcur Hsrc | current imageSrc calls err Hcur Hsrc Hrej
         | current imageSrc b apiResponse Hcur Hsrc Hres ]; cbn [final].
  - now rewrite run_unmounted.
  - now rewrite (run_no_frame env w _ current).
  - now rewrite (run_rejected env w _ current imageSrc calls err).
  - now rewrite (run_resolved env w _ current imageSrc b apiResponse).
Qed.

(** X6.  While an attempt is suspended, on the decoding or on the POST,
    the page shows the overlay, the button is disabled and reads
    ["Processing..."], the error banner is gone, and the verdict card is
    the one that was there before the attempt. *)
Theorem view_while_suspended (w : World) (s : UIState) (c : Call) (seen : UIState) :
  In (c, seen) (trace (captureAndCheck env w s)) ->
  suspends c = true ->
  overlay (App_view seen) = Element tt /\
  button (App_view seen) = {| button_disabled := true; button_label := "Processing..." |} /\
  error_banner (App_view seen) = Primitive JNull /\
  verdict_card (App_view seen) = verdict_card (App_view s).
Proof.
  intros Hin _. rewrite (calls_seen_requesting env w s c seen Hin).
  repeat split.
Qed.

(** X7.  After a failed attempt the banner shows the message of that
    failure, the overlay is off, the button is enabled again, and the
    verdict card is the one that was there before the attempt. *)
Theorem view_after_failure (w : World) (s : UIState) (k : Failure) :
  fails env w k ->
  let v := App_view (final (captureAndCheck env w s)) in
  error_banner v = Element (Some (failure_message k)) /\
  overlay v = Primitive (JBool false) /\
  button v = {| button_disabled := false; button_label := "Judge My Look" |} /\
  verdict_card v = verdict_card (App_view s).
Proof.
  intros Hk v. subst v. rewrite (run_fails env w s k Hk).
  destruct k; repeat split.
Qed.

(** X8.  After a successful classification whose body has the
    [HygieneResult] shape, the card is shown with the body's [verdict] and
    [confidence] strings as they came, the clean look exactly when the
    label is ["fresh_clean"] and the other look exactly when it is
    ["needs_bath"]; no banner, no overlay, and the button is enabled. *)
Theorem view_after_success (w : World) (s : UIState) (body : JSON) :
  classified env w body ->
  matches_HygieneResult body = true ->
  let v := App_view (final (captureAndCheck env w s)) in
  (exists card verdict confidence,
      verdict_card v = Element card /\
      member body "verdict" = Some (JString verdict) /\
      card_heading card = Some (JString verdict) /\
      member body "confidence" = Some (JString confidence) /\
      card_confidence card = Some (JString confidence) /\
      (card_icon card = Droplets <-> member body "label" = Some (JString "fresh_clean")) /\
      (card_icon card = UserX <-> member body "label" = Some (JString "needs_bath"))) /\
  error_banner v = Primitive JNull /\
  overlay v = Primitive (JBool false) /\
  button v = {| button_disabled := false; button_label := "Judge My Look" |}.
Proof.
  intros Hc Hshape v. subst v. rewrite (result_overwritten env w s body Hc).
  split; [|repeat split].
  destruct body as [ | | | | |fields]; try discriminate Hshape.
  cbn in Hshape.
  apply andb_prop in Hshape. destruct Hshape as [Hshape Hv].
  apply andb_prop in Hshape. destruct Hshape as [Hshape Hconf].
  apply andb_prop in Hshape. destruct Hshape as [_ Hlabel].
  unfold App_view, js_and. cbn.
  destruct (property "verdict" fields) as [[ | | |verdict| | ]|]; try discriminate Hv.
  destruct (property "confidence" fields) as [[ | | |confidence| | ]|]; try discriminate Hconf.
  destruct (property "label" fields) as [[ | | |label| | ]|]; try discriminate Hlabel.
  cbn in Hlabel. cbn.
  revert Hlabel.
  destruct (String.eqb_spec label "fresh_clean") as [E1|E1];
    destruct (String.eqb_spec label "needs_bath") as [E2|E2];
    cbn; intros Hlabel; try discriminate Hlabel;
    eexists _, verdict, confidence;
    repeat split; cbn; try congruence; try discriminate.
Qed.

(** X9.  A successful response whose body is falsy ([null], [false], [0]
    or the empty string) leaves the page without any feedback: no verdict
    card, no error banner, no overlay. *)
Theorem falsy_body_shows_nothing (w : World) (s : UIState) (body : JSON) :
  classified env w body ->
  to_boolean body = false ->
  let v := App_view (final (captureAndCheck env w s)) in
  verdict_card v = Primitive body /\
  error_banner v = Primitive JNull /\
  overlay v = Primitive (JBool false).
Proof.
  intros Hc Hfalsy v. subst v. rewrite (result_overwritten env w s body Hc).
  unfold App_view, js_and. cbn. now rewrite Hfalsy.
Qed.

(** X10.  After a successful response whose body is truthy but whose
    [label] is not exactly the string ["fresh_clean"], or is missing, the
    element tree [App] returns holds the card element with the needs-bath
    look, the rose classes and the [UserX] icon, and hands on as its
    children whatever the body has as [verdict] and [confidence],
    unchecked, [undefined] when missing; the tree holds no error banner.
    The statement is about the tree [App] returns, whatever its children
    are. *)
Theorem unknown_label_shown_as_needs_bath (w : World) (s : UIState) (body : JSON) :
  classified env w body ->
  to_boolean body = true ->
  member body "label" <> Some (JString "fresh_clean") ->
  let v := App_view (final (captureAndCheck env w s)) in
  exists card,
    verdict_card v = Element card /\
    card_icon card = UserX /\
    card_icon_className card = "w-16 h-16 text-rose-400" /\
    card_className card =
      "mt-10 p-8 rounded-3xl text-center w-full border-b-8 transition-all animate-in fade-in slide-in-from-bottom-4 duration-500 bg-rose-950/20 border-rose-500 text-rose-100 shadow-xl shadow-rose-900/10" /\
    card_heading card = member body "verdict" /\
    card_confidence card = member body "confidence" /\
    error_banner v = Primitive JNull.
Proof.
  intros Hc Htruthy Hlabel v. subst v. rewrite (result_overwritten env w s body Hc).
  unfold App_view, js_and. cbn. rewrite Htruthy.
  assert (Hne : strict_eq_string (member body "label") "fresh_clean" = false).
  { destruct (member body "label") as [[ | | |label| | ]|]; try reflexivity.
    cbn. destruct (String.eqb_spec label "fresh_clean") as [->|]; [|reflexivity].
    now destruct Hlabel. }
  rewrite Hne. eexists. repeat split.
Qed.

End AppProperties.

(** ** Concrete runs of the further properties *)

Lemma world_replying_classified (env : ImportMetaEnv) (status : Z) (body : JSON) :
  validateStatus status = true ->
  classified env (world_replying status body) body.
Proof.
  intros Hv.
  exists {| screenshot := Some frame |}, frame, frame_blob,
    {| data := body; response_status := status |}.
  repeat split.
  apply (resolves_post env _ frame {| blob_reply := Normal frame_blob |}); try reflexivity.
  cbn. now rewrite Hv.
Qed.

Lemma world_no_frame_fails (env : ImportMetaEnv) :
  fails env world_no_frame CaptureUnavailable.
Proof.
  apply (fails_capture env world_no_frame {| screenshot := None |}); reflexivity.
Qed.

Lemma errors_are_logged_witness :
  let r := captureAndCheck vite_env world_offline stale_state in
  length (logs (trace r)) <= 1 /\
  error (final r) = Some "Failed to connect to the Bath-O-Meter backend." /\
  exists current imageSrc calls,
    webcamRef_current world_offline = Some current /\
    truthy (screenshot current) = Some imageSrc /\
    rejects vite_env world_offline imageSrc calls (AxiosError "Network Error" None).
Proof.
  intros r.
  destruct (errors_are_logged vite_env world_offline stale_state) as (Hn & Hlog & _).
  split; [exact Hn|].
  destruct (Hlog "API Error:" (AxiosError "Network Error" None) (requesting stale_state))
    as (_ & _ & Hmsg & Hrej).
  - cbn. do 4 right. left. reflexivity.
  - split; [exact Hmsg | exact Hrej].
Defined.

Lemma decoding_reads_the_screenshot_witness :
  exists current imageSrc,
    webcamRef_current world_bad_body = Some current /\
    screenshot current = Some imageSrc /\
    imageSrc <> "" /\
    frame = imageSrc.
Proof.
  apply (decoding_reads_the_screenshot vite_env world_bad_body initial_state
           (Fetch frame) (requesting initial_state)).
  - cbn. right. left. reflexivity.
  - reflexivity.
Defined.

Lemma view_while_suspended_witness :
  let seen := requesting stale_state in
  overlay (App_view seen) = Element tt /\
  button (App_view seen) = {| button_disabled := true; button_label := "Processing..." |} /\
  error_banner (App_view seen) = Primitive JNull /\
  verdict_card (App_view seen) = verdict_card (App_view stale_state).
Proof.
  apply (view_while_suspended vite_env (world_replying 200 squeaky_clean) stale_state
           (AxiosPost (API_URL vite_env) (upload_of frame_blob)) (requesting stale_state)).
  - cbn. do 3 right. left. reflexivity.
  - reflexivity.
Defined.

Lemma view_after_failure_witness :
  let v := App_view (final (captureAndCheck vite_env world_no_frame stale_state)) in
  error_banner v = Element (Some "Could not capture image from webcam.") /\
  overlay v = Primitive (JBool false) /\
  button v = {| button_disabled := false; button_label := "Judge My Look" |} /\
  verdict_card v = verdict_card (App_view stale_state).
Proof.
  apply (view_after_failure vite_env world_no_frame stale_state CaptureUnavailable
           (world_no_frame_fails vite_env)).
Defined.

Lemma view_after_success_witness :
  let v := App_view (final (captureAndCheck vite_env (world_replying 200 squeaky_clean)
                              stale_state)) in
  (exists card verdict confidence,
      verdict_card v = Element card /\
      member squeaky_clean "verdict" = Some (JString verdict) /\
      card_heading card = Some (JString verdict) /\
      member squeaky_clean "confidence" = Some (JString confidence) /\
      card_confidence card = Some (JString confidence) /\
      (card_icon card = Droplets <->
       member squeaky_clean "label" = Some (JString "fresh_clean")) /\
      (card_icon card = UserX <->
       member squeaky_clean "label" = Some (JString "needs_bath"))) /\
  error_banner v = Primitive JNull /\
  overlay v = Primitive (JBool false) /\
  button v = {| button_disabled := false; button_label := "Judge My Look" |}.
Proof.
  apply (view_after_success vite_env (world_replying 200 squeaky_clean) stale_state
           squeaky_clean).
  - apply world_replying_classified. reflexivity.
  - reflexivity.
Defined.

Lemma falsy_body_shows_nothing_witness :
  let v := App_view (final (captureAndCheck vite_env (world_replying 200 (JNumber 0))
                              initial_state)) in
  verdict_card v = Primitive (JNumber 0) /\
  error_banner v = Primitive JNull /\
  overlay v = Primitive (JBool false).
Proof.
  apply (falsy_body_shows_nothing vite_env (world_replying 200 (JNumber 0)) initial_state
           (JNumber 0)).
  - apply world_replying_classified. reflexivity.
  - reflexivity.
Defined.

Lemma unknown_label_shown_as_needs_bath_witness :
  let v := App_view (final (captureAndCheck vite_env (world_replying 200 not_a_verdict)
                              initial_state)) in
  exists card,
    verdict_card v = Element card /\
    card_icon card = UserX /\
    card_icon_className card = "w-16 h-16 text-rose-400" /\
    card_className card =
      "mt-10 p-8 rounded-3xl text-center w-full border-b-8 transition-all animate-in fade-in slide-in-from-bottom-4 duration-500 bg-rose-950/20 border-rose-500 text-rose-100 shadow-xl shadow-rose-900/10" /\
    card_heading card = member not_a_verdict "verdict" /\
    card_confidence card = member not_a_verdict "confidence" /\
    error_banner v = Primitive JNull.
Proof.
  apply (unknown_label_shown_as_needs_bath vite_env (world_replying 200 not_a_verdict)
           initial_state not_a_verdict).
  - apply world_replying_classified. reflexivity.
  - reflexivity.
  - discriminate.
Defined.
